(** * hpecli: the self-update checker, the OneView logout and the GreenLake get command

    Shallow embedding of
    - package [update]: the version source, the manifest parser, the
      semantic-version comparator, the environment gate and the two entry
      points [checkUpdate] / [IsUpdateAvailable];
    - package [oneview]: [runLogout], [hostToLogout] and the [RunE] of
      [newLogoutCommand];
    - package [cloudvolume]: [runLogout] and the [RunE] of [newLogoutCommand];
    - package [greenlake]: [runGlGet]. *)

From Stdlib Require Import String Ascii Strings.Byte List Bool Arith NArith Lia.
Import ListNotations.
Open Scope string_scope.
Open Scope nat_scope.

(* ------------------------------------------------------------------ *)
(** ** Semantic versions *)

Module SemVer.

(** A pre-release identifier is numeric or alphanumeric. *)
Inductive PreId :=
| PNum (n : nat)
| PAlnum (s : string).

Record version := mkVersion {
  major : nat;
  minor : nat;
  patch : nat;
  pre : list PreId
}.

(** *** Parsing *)

Definition isDigit (c : ascii) : bool :=
  let n := nat_of_ascii c in (48 <=? n) && (n <=? 57).

Definition isIdentChar (c : ascii) : bool :=
  let n := nat_of_ascii c in
  isDigit c || ((65 <=? n) && (n <=? 90)) || ((97 <=? n) && (n <=? 122))
  || (n =? 45).

Fixpoint allChars (p : ascii -> bool) (s : string) : bool :=
  match s with
  | EmptyString => true
  | String c s' => p c && allChars p s'
  end.

(** Split at every occurrence of [sep]. *)
Fixpoint splitOn (sep : ascii) (s : string) : list string :=
  match s with
  | EmptyString => [EmptyString]
  | String c s' =>
      if Ascii.eqb c sep then EmptyString :: splitOn sep s'
      else match splitOn sep s' with
           | [] => [String c EmptyString]
           | w :: ws => String c w :: ws
           end
  end.

(** Split at the first occurrence of [sep]. *)
Fixpoint splitFirst (sep : ascii) (s : string) : string * option string :=
  match s with
  | EmptyString => (EmptyString, None)
  | String c s' =>
      if Ascii.eqb c sep then (EmptyString, Some s')
      else let (a, b) := splitFirst sep s' in (String c a, b)
  end.

Fixpoint digitsVal (acc : nat) (s : string) : nat :=
  match s with
  | EmptyString => acc
  | String c s' => digitsVal (acc * 10 + (nat_of_ascii c - 48)) s'
  end.

Definition parseNum (s : string) : option nat :=
  match s with
  | EmptyString => None
  | _ => if allChars isDigit s then Some (digitsVal 0 s) else None
  end.

Definition parsePreId (s : string) : option PreId :=
  match s with
  | EmptyString => None
  | _ =>
      if allChars isDigit s then Some (PNum (digitsVal 0 s))
      else if allChars isIdentChar s then Some (PAlnum s) else None
  end.

Fixpoint parsePreIds (ws : list string) : option (list PreId) :=
  match ws with
  | [] => Some []
  | w :: ws' =>
      match parsePreId w, parsePreIds ws' with
      | Some i, Some is => Some (i :: is)
      | _, _ => None
      end
  end.

Definition validBuild (b : option string) : bool :=
  match b with
  | None => true
  | Some s =>
      forallb (fun w => negb (String.eqb w EmptyString) && allChars isIdentChar w)
              (splitOn "."%char s)
  end.

(** [MAJOR.MINOR.PATCH[-PRERELEASE][+BUILD]]; the build metadata is
    checked and dropped (it takes no part in precedence). *)
Definition parse (s : string) : option version :=
  let (main, build) := splitFirst "+"%char s in
  if negb (validBuild build) then None else
  let (core, pr) := splitFirst "-"%char main in
  match splitOn "."%char core with
  | [ma; mi; pa] =>
      match parseNum ma, parseNum mi, parseNum pa with
      | Some a, Some b, Some c =>
          match pr with
          | None => Some (mkVersion a b c [])
          | Some p =>
              match parsePreIds (splitOn "."%char p) with
              | Some ids => Some (mkVersion a b c ids)
              | None => None
              end
          end
      | _, _, _ => None
      end
  | _ => None
  end.

(** *** Precedence *)

Definition cmpPreId (x y : PreId) : comparison :=
  match x, y with
  | PNum a, PNum b => Nat.compare a b
  | PNum _, PAlnum _ => Lt
  | PAlnum _, PNum _ => Gt
  | PAlnum a, PAlnum b => String.compare a b
  end.

Fixpoint cmpPreIds (xs ys : list PreId) : comparison :=
  match xs, ys with
  | [], [] => Eq
  | [], _ :: _ => Lt
  | _ :: _, [] => Gt
  | x :: xs', y :: ys' =>
      match cmpPreId x y with
      | Eq => cmpPreIds xs' ys'
      | c => c
      end
  end.

(** A release ranks above every pre-release of the same triple. *)
Definition cmpPre (xs ys : list PreId) : comparison :=
  match xs, ys with
  | [], [] => Eq
  | [], _ :: _ => Gt
  | _ :: _, [] => Lt
  | _, _ => cmpPreIds xs ys
  end.

Definition cmp (a b : version) : comparison :=
  match Nat.compare (major a) (major b) with
  | Eq =>
      match Nat.compare (minor a) (minor b) with
      | Eq =>
          match Nat.compare (patch a) (patch b) with
          | Eq => cmpPre (pre a) (pre b)
          | c => c
          end
      | c => c
      end
  | c => c
  end.

End SemVer.

(* ------------------------------------------------------------------ *)
(** ** Package [update]

    The package's own source is not among the reviewed files (only its test
    file is); every definition of this module is modelled from the spec
    (sections 3, 4 and 7) and checked against that test file. *)

Module Update.

(** Modelled from the spec: the error taxonomy of section 7. *)
Inductive ManifestErr := MissingVersion | Malformed.
Inductive VersionErr := InvalidFormat.
Inductive PreconditionErr := MissingLocalVersion.

Inductive error :=
| SourceError (cause : string)
| ManifestError (e : ManifestErr)
| VersionError (e : VersionErr)
| PreconditionError (e : PreconditionErr).

Inductive result (A : Type) :=
| Ok (a : A)
| Err (e : error).
Arguments Ok {A} a.
Arguments Err {A} e.

(** Modelled from the spec: [CheckResponse] (section 3). *)
Record CheckResponse := mkCheckResponse {
  UpdateAvailable : bool;
  RemoteVersion : string;
  Message : string;
  URL : string;
  PublicKey : list byte;
  CheckSum : string
}.

(** Go's [&CheckResponse{}]. *)
Definition zeroResponse : CheckResponse :=
  mkCheckResponse false EmptyString EmptyString EmptyString [] EmptyString.

(** The process state the checker reads: the environment, the package
    global [versionURL], the network (a body per reachable URL), and the
    log of the requests sent so far. *)
Record World := mkWorld {
  env : string -> option string;
  versionURL : string;
  net : string -> option string;
  calls : list string
}.

Definition M (A : Type) := World -> result A * World.

Definition ret {A} (a : A) : M A := fun w => (Ok a, w).
Definition fail {A} (e : error) : M A := fun w => (Err e, w).
Definition bind {A B} (m : M A) (f : A -> M B) : M B :=
  fun w => match m w with
           | (Ok a, w') => f a w'
           | (Err e, w') => (Err e, w')
           end.
Definition liftR {A} (r : result A) : M A := fun w => (r, w).

Notation "x <- m ;; k" := (bind m (fun x => k))
  (at level 61, m at next level, right associativity).

(** *** 4.4 UpdatePolicy *)

(** Modelled from the spec: the name of the disable toggle (the test file
    refers to it as [EnvDisableUpdateCheck]; its value is not in the reviewed
    files). *)
Definition EnvDisableUpdateCheck : string := "HPECLI_DISABLE_UPDATE_CHECK".

(** Modelled from the spec: a truthy value, as Go's [strconv.ParseBool]
    reads [true]. *)
Definition truthy (v : string) : bool :=
  existsb (String.eqb v) ["1"; "t"; "T"; "TRUE"; "true"; "True"].

(** Modelled from the spec: [shouldSkip], read afresh on every call. *)
Definition skipRequested (w : World) : bool :=
  match env w EnvDisableUpdateCheck with
  | Some v => truthy v
  | None => false
  end.

Definition shouldSkip : M bool := fun w => (Ok (skipRequested w), w).

(** *** 4.1 VersionSource *)

(** A source answers with the raw bytes or with the cause of its failure. *)
Class VersionSource (S : Type) :=
  fetch : S -> World -> (string + string) * World.

Definition wellFormedURL (u : string) : bool :=
  String.prefix "http://" u || String.prefix "https://" u.

(** Modelled from the spec: one GET, no retry; a malformed address fails
    before any request is sent. *)
Definition httpGet (u : string) (w : World) : (string + string) * World :=
  if negb (wellFormedURL u) then (inl ("unsupported protocol scheme: " ++ u), w)
  else
    let w' := mkWorld (env w) (versionURL w) (net w) (u :: calls w) in
    match net w u with
    | Some body => (inr body, w')
    | None => (inl ("request failed: " ++ u), w')
    end.

Record jsonSource := mkJsonSource { url : string }.

#[export] Instance jsonSource_VersionSource : VersionSource jsonSource :=
  fun s => httpGet (url s).

Definition fetchM {S} `{VersionSource S} (src : S) : M string :=
  fun w => match fetch src w with
           | (inl cause, w') => (Err (SourceError cause), w')
           | (inr body, w') => (Ok body, w')
           end.

(** *** 4.2 ManifestParser *)

(** Modelled from the spec: the manifest is a JSON object (section 6).
    The decoder follows the JSON grammar (RFC 8259) the way Go's
    [encoding/json] reads it: any value type may appear, string literals
    are unescaped (backslash followed by a double quote, a backslash, a
    slash, b, f, n, r or t, and [\uXXXX] with surrogate pairs combined, the
    result in UTF-8), a raw control character is an error,
    and a byte sequence that is not valid UTF-8 becomes U+FFFD. *)
Definition dquote : ascii := ascii_of_nat 34.
Definition backslash : ascii := ascii_of_nat 92.

Definition isWs (c : ascii) : bool :=
  let n := nat_of_ascii c in (n =? 32) || (n =? 9) || (n =? 10) || (n =? 13).

Fixpoint skipWs (s : string) : string :=
  match s with
  | String c s' => if isWs c then skipWs s' else s
  | EmptyString => s
  end.

(** A decoded JSON value. *)
#[warnings="-register-all"]
Inductive JValue :=
| JString (s : string)
| JNumber (lexeme : string)
| JBool (b : bool)
| JNull
| JArray (vs : list JValue)
| JObject (kvs : list (string * JValue)).

(** **** String literals *)

Definition hexVal (c : ascii) : option N :=
  let n := N_of_ascii c in
  if (48 <=? n)%N && (n <=? 57)%N then Some (n - 48)%N
  else if (65 <=? n)%N && (n <=? 70)%N then Some (n - 55)%N
  else if (97 <=? n)%N && (n <=? 102)%N then Some (n - 87)%N
  else None.

(** Four hexadecimal digits, as after [\u]. *)
Definition hex4 (s : string) : option (N * string) :=
  match s with
  | String a (String b (String c (String d r))) =>
      match hexVal a, hexVal b, hexVal c, hexVal d with
      | Some x, Some y, Some z, Some t => Some ((((x * 16 + y) * 16 + z) * 16 + t)%N, r)
      | _, _, _, _ => None
      end
  | _ => None
  end.

(** UTF-8 encoding of a code point. *)
Definition utf8Encode (r : N) : string :=
  let b n := ascii_of_N n in
  (if r <? 128 then String (b r) EmptyString
  else if r <? 2048 then
    String (b (192 + r / 64)) (String (b (128 + r mod 64)) EmptyString)
  else if r <? 65536 then
    String (b (224 + r / 4096))
      (String (b (128 + (r / 64) mod 64)) (String (b (128 + r mod 64)) EmptyString))
  else
    String (b (240 + r / 262144))
      (String (b (128 + (r / 4096) mod 64))
        (String (b (128 + (r / 64) mod 64)) (String (b (128 + r mod 64)) EmptyString))))%N.

Definition replacementChar : string := utf8Encode 65533%N.

(** A high surrogate [hi] followed by [\u] and a low surrogate: the
    combined code point and the rest of the input. *)
Definition lowSurrogate (hi : N) (s : string) : option (N * string) :=
  match s with
  | String e (String u s4) =>
      if Ascii.eqb e backslash && Ascii.eqb u "u"%char then
        match hex4 s4 with
        | Some (lo, s5) =>
            if ((55296 <=? hi) && (hi <? 56320) && (56320 <=? lo) && (lo <? 57344))%N
            then Some ((65536 + (hi - 55296) * 1024 + (lo - 56320))%N, s5)
            else None
        | None => None
        end
      else None
  | _ => None
  end.

(** The one-character escapes. *)
Definition escapeChar (e : ascii) : option ascii :=
  let n := nat_of_ascii e in
  if (n =? 34) || (n =? 92) || (n =? 47) then Some e
  else if n =? 98 then Some (ascii_of_nat 8)
  else if n =? 102 then Some (ascii_of_nat 12)
  else if n =? 110 then Some (ascii_of_nat 10)
  else if n =? 114 then Some (ascii_of_nat 13)
  else if n =? 116 then Some (ascii_of_nat 9)
  else None.

Definition inRange (lo hi : nat) (c : ascii) : bool :=
  (lo <=? nat_of_ascii c) && (nat_of_ascii c <=? hi).

(** The length of the valid UTF-8 sequence of two to four bytes at the
    head of [s], if there is one (the ranges of Go's [utf8.DecodeRune]). *)
Definition utf8SeqLen (s : string) : option nat :=
  match s with
  | String c0 r0 =>
      let b0 := nat_of_ascii c0 in
      if (194 <=? b0) && (b0 <=? 223) then
        match r0 with
        | String c1 _ => if inRange 128 191 c1 then Some 2 else None
        | _ => None
        end
      else if (224 <=? b0) && (b0 <=? 239) then
        let lo := if b0 =? 224 then 160 else 128 in
        let hi := if b0 =? 237 then 159 else 191 in
        match r0 with
        | String c1 (String c2 _) =>
            if inRange lo hi c1 && inRange 128 191 c2 then Some 3 else None
        | _ => None
        end
      else if (240 <=? b0) && (b0 <=? 244) then
        let lo := if b0 =? 240 then 144 else 128 in
        let hi := if b0 =? 244 then 143 else 191 in
        match r0 with
        | String c1 (String c2 (String c3 _)) =>
            if inRange lo hi c1 && inRange 128 191 c2 && inRange 128 191 c3
            then Some 4 else None
        | _ => None
        end
      else None
  | EmptyString => None
  end.

Definition prependStr (p : string) (o : option (string * string))
  : option (string * string) :=
  match o with
  | Some (v, r) => Some (p ++ v, r)
  | None => None
  end.

(** Reads the rest of a string literal whose opening quote is consumed:
    the decoded text and the input after the closing quote.  Every step
    consumes at least one byte, so [String.length s + 1] is enough fuel. *)
Fixpoint readStr (fuel : nat) (s : string) : option (string * string) :=
  match fuel with
  | O => None
  | S f =>
      match s with
      | EmptyString => None
      | String c s' =>
          let n := nat_of_ascii c in
          if n =? 34 then Some (EmptyString, s')
          else if n =? 92 then
            match s' with
            | EmptyString => None
            | String e s'' =>
                match escapeChar e with
                | Some ch => prependStr (String ch EmptyString) (readStr f s'')
                | None =>
                    if Ascii.eqb e "u"%char then
                      match hex4 s'' with
                      | None => None
                      | Some (r, s3) =>
                          if ((55296 <=? r) && (r <? 57344))%N then
                            match lowSurrogate r s3 with
                            | Some (rr, s4) => prependStr (utf8Encode rr) (readStr f s4)
                            | None => prependStr replacementChar (readStr f s3)
                            end
                          else prependStr (utf8Encode r) (readStr f s3)
                      end
                    else None
                end
            end
          else if n <? 32 then None
          else if n <? 128 then prependStr (String c EmptyString) (readStr f s')
          else
            match utf8SeqLen s with
            | Some k => prependStr (substring 0 k s) (readStr f (substring k (String.length s - k) s))
            | None => prependStr replacementChar (readStr f s')
            end
      end
  end.

(** **** Numbers and literals *)

Fixpoint spanDigits (s : string) : string * string :=
  match s with
  | String c r =>
      if SemVer.isDigit c then let (d, r') := spanDigits r in (String c d, r')
      else (EmptyString, s)
  | EmptyString => (EmptyString, EmptyString)
  end.

(** [-? (0 | [1-9][0-9]* ) (. [0-9]+)? ([eE] [+-]? [0-9]+)?]: the lexeme
    and the rest of the input. *)
Definition readNumber (s : string) : option (string * string) :=
  let '(sign, s1) :=
    match s with
    | String c r => if Ascii.eqb c "-"%char then ("-", r) else (EmptyString, s)
    | EmptyString => (EmptyString, s)
    end in
  let int :=
    match s1 with
    | String c r =>
        if Ascii.eqb c "0"%char then Some ("0", r)
        else if SemVer.isDigit c then let (d, r') := spanDigits r in Some (String c d, r')
        else None
    | EmptyString => None
    end in
  match int with
  | None => None
  | Some (i, s2) =>
      let frac :=
        match s2 with
        | String c r =>
            if Ascii.eqb c "."%char then
              let (d, r') := spanDigits r in
              if String.eqb d EmptyString then None else Some (String c d, r')
            else Some (EmptyString, s2)
        | EmptyString => Some (EmptyString, s2)
        end in
      match frac with
      | None => None
      | Some (fr, s3) =>
          let ex :=
            match s3 with
            | String c r =>
                if Ascii.eqb c "e"%char || Ascii.eqb c "E"%char then
                  let '(sg, r1) :=
                    match r with
                    | String p r0 =>
                        if Ascii.eqb p "+"%char || Ascii.eqb p "-"%char
                        then (String p EmptyString, r0) else (EmptyString, r)
                    | EmptyString => (EmptyString, r)
                    end in
                  let (d, r') := spanDigits r1 in
                  if String.eqb d EmptyString then None
                  else Some (String c (sg ++ d), r')
                else Some (EmptyString, s3)
            | EmptyString => Some (EmptyString, s3)
            end in
          match ex with
          | None => None
          | Some (e, s4) => Some (sign ++ i ++ fr ++ e, s4)
          end
      end
  end.

(** **** Values *)

(** A value (leading whitespace allowed), an object's members after its
    opening brace, an array's elements after its opening bracket.  Each
    nested call is reached after at least one byte is consumed. *)
Fixpoint parseValue (fuel : nat) (s : string) : option (JValue * string) :=
  match fuel with
  | O => None
  | S f =>
      match skipWs s with
      | EmptyString => None
      | String c r =>
          if Ascii.eqb c dquote then
            match readStr (String.length r + 1) r with
            | Some (v, r') => Some (JString v, r')
            | None => None
            end
          else if Ascii.eqb c "{"%char then
            match skipWs r with
            | String e r2 =>
                if Ascii.eqb e "}"%char then Some (JObject [], r2)
                else match parseMembers f r with
                     | Some (kvs, r3) => Some (JObject kvs, r3)
                     | None => None
                     end
            | EmptyString => None
            end
          else if Ascii.eqb c "["%char then
            match skipWs r with
            | String e r2 =>
                if Ascii.eqb e "]"%char then Some (JArray [], r2)
                else match parseElements f r with
                     | Some (vs, r3) => Some (JArray vs, r3)
                     | None => None
                     end
            | EmptyString => None
            end
          else if String.prefix "true" (String c r) then
            Some (JBool true, substring 3 (String.length r - 3) r)
          else if String.prefix "false" (String c r) then
            Some (JBool false, substring 4 (String.length r - 4) r)
          else if String.prefix "null" (String c r) then
            Some (JNull, substring 3 (String.length r - 3) r)
          else
            match readNumber (String c r) with
            | Some (lex, r') => Some (JNumber lex, r')
            | None => None
            end
      end
  end
with parseMembers (fuel : nat) (s : string)
  : option (list (string * JValue) * string) :=
  match fuel with
  | O => None
  | S f =>
      match skipWs s with
      | String q s1 =>
          if negb (Ascii.eqb q dquote) then None else
          match readStr (String.length s1 + 1) s1 with
          | None => None
          | Some (k, s2) =>
              match skipWs s2 with
              | String col s3 =>
                  if negb (Ascii.eqb col ":"%char) then None else
                  match parseValue f s3 with
                  | None => None
                  | Some (v, s5) =>
                      match skipWs s5 with
                      | String c s6 =>
                          if Ascii.eqb c ","%char then
                            match parseMembers f s6 with
                            | Some (kvs, r) => Some ((k, v) :: kvs, r)
                            | None => None
                            end
                          else if Ascii.eqb c "}"%char then Some ([(k, v)], s6)
                          else None
                      | EmptyString => None
                      end
                  end
              | EmptyString => None
              end
          end
      | EmptyString => None
      end
  end
with parseElements (fuel : nat) (s : string)
  : option (list JValue * string) :=
  match fuel with
  | O => None
  | S f =>
      match parseValue f s with
      | None => None
      | Some (v, s1) =>
          match skipWs s1 with
          | String c s2 =>
              if Ascii.eqb c ","%char then
                match parseElements f s2 with
                | Some (vs, r) => Some (v :: vs, r)
                | None => None
                end
              else if Ascii.eqb c "]"%char then Some ([v], s2)
              else None
          | EmptyString => None
          end
      end
  end.

(** The manifest document: one JSON object, with only whitespace after it.
    Its members in order, duplicates kept. *)
Definition decodeJSON (s : string) : option (list (string * JValue)) :=
  match parseValue (String.length s + 1) s with
  | Some (JObject kvs, r) => if String.eqb (skipWs r) EmptyString then Some kvs else None
  | _ => None
  end.

(** Modelled from the spec: the remote manifest; [publickey] is kept as
    text and copied into the byte field verbatim. *)
Record RemoteManifest := mkManifest {
  mVersion : string;
  mMessage : string;
  mURL : string;
  mPublicKey : string;
  mCheckSum : string
}.

Definition emptyManifest : RemoteManifest := mkManifest EmptyString EmptyString EmptyString EmptyString EmptyString.

Definition recognizedKey (k : string) : bool :=
  String.eqb k "version" || String.eqb k "message" || String.eqb k "url"
  || String.eqb k "publickey" || String.eqb k "checksum".

(** Decoding into the struct: a recognised key with a string value sets its
    field (a later duplicate overwrites an earlier one); [null] leaves the
    field as it is; an unknown key is ignored whatever its value. *)
Definition assignField (m : RemoteManifest) (kv : string * JValue) : RemoteManifest :=
  match kv with
  | (k, JString v) =>
      if String.eqb k "version" then mkManifest v (mMessage m) (mURL m) (mPublicKey m) (mCheckSum m)
      else if String.eqb k "message" then mkManifest (mVersion m) v (mURL m) (mPublicKey m) (mCheckSum m)
      else if String.eqb k "url" then mkManifest (mVersion m) (mMessage m) v (mPublicKey m) (mCheckSum m)
      else if String.eqb k "publickey" then mkManifest (mVersion m) (mMessage m) (mURL m) v (mCheckSum m)
      else if String.eqb k "checksum" then mkManifest (mVersion m) (mMessage m) (mURL m) (mPublicKey m) v
      else m
  | _ => m
  end.

(** Every recognised key holds a string or [null]. *)
Definition wellTyped (kvs : list (string * JValue)) : bool :=
  forallb (fun kv => negb (recognizedKey (fst kv))
                     || match snd kv with JString _ | JNull => true | _ => false end) kvs.

(** The value of [key] in a decoded object: the last one that is not
    [null] ([null] sets nothing). *)
Definition lookupKey (key : string) (kvs : list (string * JValue)) : option JValue :=
  fold_left (fun acc kv =>
               if String.eqb (fst kv) key then
                 match snd kv with JNull => acc | v => Some v end
               else acc)
            kvs None.

(** Modelled from the spec: [parse(bytes) -> RemoteManifest, error].  A
    document that is not a JSON object is [Malformed]; an absent (or
    [null]) or empty [version] is [MissingVersion]; a recognised key whose
    value is neither a string nor [null] cannot be decoded into its field
    and is [Malformed]. *)
Definition parseManifest (raw : string) : result RemoteManifest :=
  match decodeJSON raw with
  | None => Err (ManifestError Malformed)
  | Some kvs =>
      let missing :=
        match lookupKey "version" kvs with
        | None => true
        | Some (JString v) => String.eqb v EmptyString
        | Some _ => false
        end in
      if missing then Err (ManifestError MissingVersion)
      else if wellTyped kvs then Ok (fold_left assignField kvs emptyManifest)
      else Err (ManifestError Malformed)
  end.

(** *** 4.3 VersionComparator *)

(** Modelled from the spec: [compare(local, remote)]. *)
Definition compare (localV remoteV : string) : result comparison :=
  match SemVer.parse localV, SemVer.parse remoteV with
  | Some a, Some b => Ok (SemVer.cmp a b)
  | _, _ => Err (VersionError InvalidFormat)
  end.

(** *** 4.5 UpdateChecker *)

(** Modelled from the spec: the six steps of the detailed entry point. *)
Definition checkUpdateM {S} `{VersionSource S} (src : S) (localVersion : string)
  : M CheckResponse :=
  skip <- shouldSkip ;;
  if skip then ret zeroResponse else
  if String.eqb localVersion EmptyString then fail (PreconditionError MissingLocalVersion) else
  raw <- fetchM src ;;
  m <- liftR (parseManifest raw) ;;
  c <- liftR (compare localVersion (mVersion m)) ;;
  ret (mkCheckResponse
         (match c with Lt => true | _ => false end)
         (mVersion m) (mMessage m) (mURL m)
         (list_byte_of_string (mPublicKey m)) (mCheckSum m)).

(** Modelled from the spec: the Go pair of a response pointer and an error; on a
    failure the response is the zero value (section 3). *)
Definition checkUpdate {S} `{VersionSource S} (src : S) (localVersion : string)
  (w : World) : (CheckResponse * option error) * World :=
  match checkUpdateM src localVersion w with
  | (Ok r, w') => ((r, None), w')
  | (Err e, w') => ((zeroResponse, Some e), w')
  end.

(** Modelled from the spec: the convenience entry point, on the network
    source at [versionURL] and the binary's compiled-in [buildVersion];
    every error is swallowed (and only logged). *)
Definition IsUpdateAvailable (buildVersion : string) (w : World) : bool * World :=
  match checkUpdate (mkJsonSource (versionURL w)) buildVersion w with
  | ((_, Some _), w') => (false, w')
  | ((r, None), w') => (UpdateAvailable r, w')
  end.

End Update.

(* ------------------------------------------------------------------ *)
(** ** Package [oneview]: [logout]

    The session store and the OneView client live in other files of the
    package; they are taken here as arbitrary functions, so every fact below
    holds whatever they do.  A Go [error] is its message, [inl msg]. *)

Module OneView.

Inductive event :=
| ESessionLogout (host : string) (ok : bool)
| EDelete (host : string).

(** The [--host] flag as [RunE] rewrites it: a non-empty host that does not
    start with [http] gets the [https://] scheme. *)
Definition normalizeHost (host : string) : string :=
  if negb (String.eqb host EmptyString) && negb (String.prefix "http" host)
  then "https://" ++ host
  else host.

Section Logout.

Context {Store : Type}.

(** [hostAndToken()]: the host and token of the last login. *)
Variable hostAndToken : Store -> string + (string * string).
(** [hostData(host)]: the token saved for [host]. *)
Variable hostData : Store -> string -> string + string.
(** [newOVClientFromAPIKey(host, token).SessionLogout()]. *)
Variable sessionLogout : string -> string -> option string.
(** [deleteSavedHostData(host)]. *)
Variable deleteSavedHostData : Store -> string -> option string * Store.

Definition lastLoginMsg : string :=
  "unable to retrieve the last login for OneView.  " ++
  "Please login to OneView using: hpecli oneview login".

Definition hostToLogout (hostParam : string) (st : Store)
  : string + (string * string) :=
  if String.eqb hostParam EmptyString then
    match hostAndToken st with
    | inl _ => inl lastLoginMsg
    | inr (h, t) => inr (h, t)
    end
  else
    match hostData st hostParam with
    | inl err => inl err
    | inr token => inr (hostParam, token)
    end.

(** [runLogout]: the returned error, the store afterwards and the calls
    made to the server and to the store, in order. *)
Definition runLogout (hostParam : string) (st : Store)
  : option string * Store * list event :=
  match hostToLogout hostParam st with
  | inl _ => (Some lastLoginMsg, st, [])
  | inr (host, token) =>
      match sessionLogout host token with
      | Some err => (Some err, st, [ESessionLogout host false])
      | None =>
          match deleteSavedHostData st host with
          | (Some err, st') => (Some err, st', [ESessionLogout host true; EDelete host])
          | (None, st') => (None, st', [ESessionLogout host true; EDelete host])
          end
      end
  end.

(** The [RunE] of [newLogoutCommand], on the value of the [--host] flag. *)
Definition logoutRunE (host : string) (st : Store)
  : option string * Store * list event :=
  runLogout (normalizeHost host) st.

End Logout.

End OneView.

(* ------------------------------------------------------------------ *)
(** ** Package [cloudvolume]: [logout]

    As for OneView, the store and the default host come from other files of
    the package and are taken as arbitrary.  The calls are recorded with the
    events of the OneView model. *)

Module CloudVolume.
Import OneView.

Section CVLogout.

Context {Store : Type}.

(** [cvDefaultHost]. *)
Variable cvDefaultHost : string.
(** [hostData(host)]. *)
Variable hostData : Store -> string -> string + string.
(** [deleteSavedHostData(host)]. *)
Variable deleteSavedHostData : Store -> string -> option string * Store.

Definition lastLoginMsg : string :=
  "Unable to retrieve the last login for HPE Cloud volumes. " ++
  "Please login to HPE Cloud Volumes using: hpe cloudvolumes login".

(** [runLogout]; [newCVClientFromAPIKey] builds a client that is never
    used (there is no API logout). *)
Definition runLogout (host0 : string) (st : Store)
  : option string * Store * list event :=
  let host := if String.eqb host0 EmptyString then cvDefaultHost else host0 in
  match hostData st host with
  | inl _ => (Some lastLoginMsg, st, [])
  | inr _ =>
      match deleteSavedHostData st host with
      | (Some err, st') => (Some err, st', [EDelete host])
      | (None, st') => (None, st', [EDelete host])
      end
  end.

(** The [RunE] of [newLogoutCommand], on the value of its [host] variable. *)
Definition logoutRunE (host0 : string) (st : Store)
  : option string * Store * list event :=
  let host1 := normalizeHost host0 in
  let host := if String.eqb host1 EmptyString then cvDefaultHost else host1 in
  runLogout host st.

End CVLogout.

End CloudVolume.

(* ------------------------------------------------------------------ *)
(** ** Package [greenlake]: [get] *)

Module GreenLake.

Record User := mkUser {
  DisplayName : string;
  UserName : string;
  Active : bool
}.

Definition newline : string := String (ascii_of_nat 10) EmptyString.

Definition showBool (b : bool) : string := if b then "true" else "false".

(** Occurrences of a character, to count the lines written. *)
Fixpoint countChar (c : ascii) (s : string) : nat :=
  match s with
  | EmptyString => 0
  | String d s' => (if Ascii.eqb d c then 1 else 0) + countChar c s'
  end.

Section Get.

(** The saved login, [getTokenTenantID()]. *)
Variable getTokenTenantID : unit -> string * string * string.
(** [NewGLClientFromAPIKey(host, tenantID, apiKey).GetUsers(path)]. *)
Variable getUsers : string -> string -> string -> string -> string + string.
(** [json.Unmarshal(body, &result)] into a [[]User]. *)
Variable unmarshalUsers : string -> string + list User.

(** [runGlGet] on the flag values [getPath] and [getJSONResult]: the
    returned error and the text written to standard output. *)
Definition runGlGet (getPath : string) (getJSONResult : bool)
  : option string * string :=
  let '(host, tenantID, apiKey) := getTokenTenantID tt in
  if String.eqb getPath "users" then
    match getUsers host tenantID apiKey "Users" with
    | inl err => (Some err, EmptyString)
    | inr body =>
        if getJSONResult then (None, body ++ newline)
        else
          match unmarshalUsers body with
          | inl err => (Some err, EmptyString)
          | inr result =>
              (None, String.concat EmptyString
                 (map (fun user => "Name: " ++ DisplayName user ++ " : Email: "
                                   ++ UserName user ++ " Active: "
                                   ++ showBool (Active user) ++ newline) result))
          end
    end
  else
    (* fmt.Println separates its two operands by a space *)
    (None, "Unknown path: " ++ " " ++ getPath ++ newline).

End Get.

End GreenLake.

(* ------------------------------------------------------------------ *)
(** ** Fixtures: the test server, the manifests of the test file, a store *)

Module Fixtures.
Import Update OneView.

Definition serverURL : string := "http://127.0.0.1:8080/version".

Definition serving (remoteJSON : string) (envSkip : option string) : World :=
  mkWorld (fun k => if String.eqb k EnvDisableUpdateCheck then envSkip else None)
          serverURL
          (fun u => if String.eqb u serverURL then Some remoteJSON else None)
          [].

(** A JSON string literal. *)
Definition q (s : string) : string := String dquote s ++ String dquote EmptyString.

(** A manifest carrying only a version. *)
Definition manifestOf (v : string) : string := "{" ++ q "version" ++ ":" ++ q v ++ "}".

Definition jsonA : string := manifestOf "0.1.0".

(** The manifest of the test "check all fields". *)
Definition jsonAll : string :=
  "{" ++ q "version" ++ ":" ++ q "0.1.1" ++ "," ++ q "message" ++ ":"
  ++ q "update available" ++ "," ++ q "url" ++ ":" ++ q "https://foo.bar/update"
  ++ "," ++ q "publickey" ++ ":" ++ q "00001111" ++ "," ++ q "checksum" ++ ":"
  ++ q "120EA8A25E5D487BF68B5F7096440019" ++ "}".

(** The manifest of the test "missing remote version". *)
Definition jsonNoVersion : string :=
  "{" ++ q "message" ++ ":" ++ q "test will fail" ++ "}".

(** No version, and an unknown key whose value is a number. *)
Definition jsonUnknownValues : string :=
  "{" ++ q "message" ++ ":" ++ q "x" ++ "," ++ q "size" ++ ":1}".

(** A [null] version, and unknown keys holding an array, an object and a
    number, with whitespace around the tokens. *)
Definition jsonNullVersion : string :=
  "{ " ++ q "version" ++ " : null, " ++ q "tags" ++ ": [" ++ q "a" ++ ", {"
  ++ q "k" ++ ": true}, false], " ++ q "n" ++ ": -1.5e3 }".

(** Every field, with escapes in the strings, and an unknown numeric key. *)
Definition jsonEscaped : string :=
  "{" ++ q "version" ++ ":" ++ q "0.1.1" ++ "," ++ q "message" ++ ":"
  ++ q "update\navailable \u00e9" ++ "," ++ q "url" ++ ":" ++ q "https:\/\/foo.bar\/update"
  ++ "," ++ q "publickey" ++ ":" ++ q "0000\u0031111" ++ "," ++ q "checksum" ++ ":"
  ++ q "120EA8A25E5D487BF68B5F7096440019" ++ "," ++ q "size" ++ ":1}".

(** The message of [jsonEscaped], decoded: a line feed, and U+00E9 in UTF-8. *)
Definition escapedMessage : string :=
  "update" ++ String (ascii_of_nat 10) ("available " ++
  String (ascii_of_nat 195) (String (ascii_of_nat 169) EmptyString)).

Definition badWorld : World :=
  mkWorld (fun _ => None) "://badScheme" (fun _ => None) [].

Definition src : jsonSource := mkJsonSource serverURL.

(** A session store of (host, token) pairs, the last login first. *)
Definition store : Type := list (string * string).

Definition storeHostAndToken (st : store) : string + (string * string) :=
  match st with
  | [] => inl "no current context"
  | p :: _ => inr p
  end.

Definition storeHostData (st : store) (h : string) : string + string :=
  match find (fun p => String.eqb (fst p) h) st with
  | Some p => inr (snd p)
  | None => inl "no saved token"
  end.

Definition storeDelete (st : store) (h : string) : option string * store :=
  (None, filter (fun p => negb (String.eqb (fst p) h)) st).

(** A server that refuses every logout. *)
Definition refusingLogout (_ _ : string) : option string := Some "401 Unauthorized".

Definition st0 : store := [("https://ov.example", "tok")].

(** A Cloud Volumes default host. *)
Definition cvHost : string := "https://cv.example".

(** A server that accepts every logout. *)
Definition acceptingLogout (_ _ : string) : option string := None.

(** A GreenLake login, users endpoints and decoders. *)
Definition glLogin (_ : unit) : string * string * string :=
  ("https://gl.example", "tenant", "key").
Definition usersUp (_ _ _ _ : string) : string + string := inr "[users]".
Definition usersDown (_ _ _ _ : string) : string + string := inl "503 Service Unavailable".
Definition decodeTwo (_ : string) : string + list GreenLake.User :=
  inr [GreenLake.mkUser "Ann" "ann@example.com" true;
       GreenLake.mkUser "Bob" "bob@example.com" false].
Definition decodeFail (_ : string) : string + list GreenLake.User :=
  inl "invalid character".

End Fixtures.

Example semver_parse_ex :
  SemVer.parse "1.2.3-rc.1+b5" =
  Some (SemVer.mkVersion 1 2 3 [SemVer.PAlnum "rc"; SemVer.PNum 1]).
Proof. reflexivity. Qed.


(** *** Order facts for the precedence *)

Module SemVerFacts.
Import SemVer.

Lemma ascii_compare_trans_lt (a b c : ascii) :
  Ascii.compare a b = Lt -> Ascii.compare b c = Lt -> Ascii.compare a c = Lt.
Proof.
  unfold Ascii.compare. rewrite !N.compare_lt_iff. lia.
Qed.

Lemma ascii_compare_refl (a : ascii) : Ascii.compare a a = Eq.
Proof. unfold Ascii.compare. apply N.compare_refl. Qed.

Lemma string_compare_trans_lt (x y z : string) :
  String.compare x y = Lt -> String.compare y z = Lt -> String.compare x z = Lt.
Proof.
  revert y z; induction x as [|a x IH]; intros [|b y] [|c z]; simpl;
    try discriminate; auto.
  destruct (Ascii.compare a b) eqn:Hab; try discriminate;
  destruct (Ascii.compare b c) eqn:Hbc; try discriminate; intros H1 H2.
  - apply Ascii.compare_eq_iff in Hab, Hbc; subst.
    rewrite ascii_compare_refl. eauto.
  - apply Ascii.compare_eq_iff in Hab; subst. now rewrite Hbc.
  - apply Ascii.compare_eq_iff in Hbc; subst. now rewrite Hab.
  - now rewrite (ascii_compare_trans_lt _ _ _ Hab Hbc).
Qed.

Lemma cmpPreId_antisym (x y : PreId) : cmpPreId x y = CompOpp (cmpPreId y x).
Proof.
  destruct x, y; simpl; auto.
  - apply Nat.compare_antisym.
  - apply String.compare_antisym.
Qed.

Lemma cmpPreId_eq (x y : PreId) : cmpPreId x y = Eq -> x = y.
Proof.
  destruct x, y; simpl; try discriminate.
  - now intros ->%Nat.compare_eq_iff.
  - now intros ->%String.compare_eq_iff.
Qed.

Lemma cmpPreId_trans_lt (x y z : PreId) :
  cmpPreId x y = Lt -> cmpPreId y z = Lt -> cmpPreId x z = Lt.
Proof.
  destruct x, y, z; simpl; try discriminate; auto.
  - rewrite !Nat.compare_lt_iff. lia.
  - apply string_compare_trans_lt.
Qed.

Lemma cmpPreIds_antisym (xs ys : list PreId) :
  cmpPreIds xs ys = CompOpp (cmpPreIds ys xs).
Proof.
  revert ys; induction xs as [|x xs IH]; intros [|y ys]; simpl; auto.
  rewrite (cmpPreId_antisym x y).
  destruct (cmpPreId y x); simpl; auto.
Qed.

Lemma cmpPreIds_eq (xs ys : list PreId) : cmpPreIds xs ys = Eq -> xs = ys.
Proof.
  revert ys; induction xs as [|x xs IH]; intros [|y ys]; simpl; try discriminate; auto.
  destruct (cmpPreId x y) eqn:E; try discriminate.
  intros H. apply cmpPreId_eq in E. f_equal; auto.
Qed.

Lemma cmpPreId_refl (x : PreId) : cmpPreId x x = Eq.
Proof.
  destruct (cmpPreId x x) eqn:E; auto;
    pose proof (cmpPreId_antisym x x) as A; rewrite E in A; discriminate.
Qed.

Lemma cmpPreIds_refl (xs : list PreId) : cmpPreIds xs xs = Eq.
Proof.
  induction xs as [|x xs IH]; simpl; auto.
  now rewrite cmpPreId_refl.
Qed.

Lemma cmpPreIds_trans_lt (xs ys zs : list PreId) :
  cmpPreIds xs ys = Lt -> cmpPreIds ys zs = Lt -> cmpPreIds xs zs = Lt.
Proof.
  revert ys zs; induction xs as [|x xs IH]; intros [|y ys] [|z zs]; simpl;
    try discriminate; auto.
  destruct (cmpPreId x y) eqn:Hxy; try discriminate;
  destruct (cmpPreId y z) eqn:Hyz; try discriminate; intros H1 H2.
  - apply cmpPreId_eq in Hxy, Hyz; subst.
    rewrite cmpPreId_refl. eauto.
  - apply cmpPreId_eq in Hxy; subst. now rewrite Hyz.
  - apply cmpPreId_eq in Hyz; subst. now rewrite Hxy.
  - now rewrite (cmpPreId_trans_lt _ _ _ Hxy Hyz).
Qed.

Lemma cmpPre_antisym (xs ys : list PreId) : cmpPre xs ys = CompOpp (cmpPre ys xs).
Proof.
  destruct xs as [|x xs], ys as [|y ys]; auto.
  apply (cmpPreIds_antisym (x :: xs) (y :: ys)).
Qed.

Lemma cmpPre_trans_lt (xs ys zs : list PreId) :
  cmpPre xs ys = Lt -> cmpPre ys zs = Lt -> cmpPre xs zs = Lt.
Proof.
  destruct xs as [|x xs], ys as [|y ys], zs as [|z zs]; simpl;
    try discriminate; auto.
  apply (cmpPreIds_trans_lt (x :: xs) (y :: ys) (z :: zs)).
Qed.

Ltac nat_cmp_cases x y :=
  let Exy := fresh "E" in let Lxy := fresh "L" in let Gxy := fresh "G" in
  destruct (Nat.compare_spec x y) as [Exy|Lxy|Gxy];
  [ rewrite Exy, Nat.compare_refl
  | rewrite (proj2 (Nat.compare_gt_iff _ _) Lxy)
  | rewrite (proj2 (Nat.compare_lt_iff _ _) Gxy) ]; simpl; auto.

Lemma cmp_antisym (a b : version) : cmp a b = CompOpp (cmp b a).
Proof.
  unfold cmp.
  nat_cmp_cases (major a) (major b).
  nat_cmp_cases (minor a) (minor b).
  nat_cmp_cases (patch a) (patch b).
  apply cmpPre_antisym.
Qed.

Lemma cmp_lt_iff (a b : version) :
  cmp a b = Lt <->
  major a < major b \/
  (major a = major b /\ (minor a < minor b \/
  (minor a = minor b /\ (patch a < patch b \/
  (patch a = patch b /\ cmpPre (pre a) (pre b) = Lt))))).
Proof.
  unfold cmp.
  destruct (Nat.compare_spec (major a) (major b)) as [E1|L1|G1];
  [destruct (Nat.compare_spec (minor a) (minor b)) as [E2|L2|G2];
   [destruct (Nat.compare_spec (patch a) (patch b)) as [E3|L3|G3]| |]| |].
  all: split; [intros H|intros [H|[H H']]]; try discriminate; try lia; auto.
  all: try (destruct H' as [H'|[H' H'']]; try lia).
  all: try (destruct H'' as [H''|[H'' H''']]; try lia; auto).
  all: right; repeat (split; [assumption|]); first [left; assumption | right].
  all: repeat (split; [assumption|]); first [left; assumption | right].
  all: repeat (split; [assumption|]); first [left; assumption | assumption].
Qed.

Lemma cmp_trans_lt (a b c : version) :
  cmp a b = Lt -> cmp b c = Lt -> cmp a c = Lt.
Proof.
  rewrite !cmp_lt_iff. intros H1 H2.
  destruct H1 as [H1|[E1 [H1|[F1 [H1|[G1 H1]]]]]];
  destruct H2 as [H2|[E2 [H2|[F2 [H2|[G2 H2]]]]]];
  first [ left; lia
        | right; split; [lia|]; left; lia
        | right; split; [lia|]; right; split; [lia|]; left; lia
        | idtac ].
  right; split; [lia|]; right; split; [lia|]; right; split; [lia|].
  eapply cmpPre_trans_lt; eauto.
Qed.
End SemVerFacts.

(* ------------------------------------------------------------------ *)
(** ** The update checker against its test file *)

Module UpdateTests.
Import Update Fixtures.

(** "remote greater than local" *)
Example checkUpdate_remote_greater :
  fst (checkUpdate (mkJsonSource serverURL) "0.0.1" (serving jsonA None)) =
  (mkCheckResponse true "0.1.0" EmptyString EmptyString [] EmptyString, None).
Proof. vm_compute. reflexivity. Qed.

(** "remote less than local" *)
Example checkUpdate_remote_less :
  fst (checkUpdate (mkJsonSource serverURL) "0.0.2" (serving (manifestOf "0.0.1") None)) =
  (mkCheckResponse false "0.0.1" EmptyString EmptyString [] EmptyString, None).
Proof. vm_compute. reflexivity. Qed.

(** "missing remote version" *)
Example checkUpdate_missing_remote_version :
  snd (fst (checkUpdate (mkJsonSource serverURL) "0.0.1" (serving jsonNoVersion None))) =
  Some (ManifestError MissingVersion).
Proof. vm_compute. reflexivity. Qed.

(** The convenience entry point, for a binary built as version 0.0.0. *)
Example isUpdateAvailable_same_version :
  fst (IsUpdateAvailable "0.0.0" (serving (manifestOf "0.0.0") None)) = false.
Proof. vm_compute. reflexivity. Qed.

Example isUpdateAvailable_newer_remote :
  fst (IsUpdateAvailable "0.0.0" (serving (manifestOf "0.0.1") None)) = true.
Proof. vm_compute. reflexivity. Qed.

(** "check skipped with env set": empty response, no request sent *)
Example checkUpdate_env_set :
  checkUpdate (mkJsonSource EmptyString) EmptyString (serving jsonA (Some "true")) =
  ((zeroResponse, None), serving jsonA (Some "true")).
Proof. reflexivity. Qed.

(** "invalid URL errors": [versionURL = "://badScheme"] *)
Example isUpdateAvailable_bad_scheme :
  fst (IsUpdateAvailable "0.0.0"
         (mkWorld (fun _ => None) "://badScheme" (fun _ => None) [])) = false.
Proof. vm_compute. reflexivity. Qed.

End UpdateTests.

(** The JSON decoder of the manifest parser on concrete documents. *)
Module DecoderExamples.
Import Update Fixtures.

(** An unknown key is skipped whatever its value. *)
Example decode_unknown_number :
  decodeJSON jsonUnknownValues = Some [("message", JString "x"); ("size", JNumber "1")].
Proof. vm_compute. reflexivity. Qed.

Example parse_unknown_number :
  parseManifest jsonUnknownValues = Err (ManifestError MissingVersion).
Proof. vm_compute. reflexivity. Qed.

Example decode_null_version :
  decodeJSON jsonNullVersion =
  Some [("version", JNull);
        ("tags", JArray [JString "a"; JObject [("k", JBool true)]; JBool false]);
        ("n", JNumber "-1.5e3")].
Proof. vm_compute. reflexivity. Qed.

Example parse_null_version :
  parseManifest jsonNullVersion = Err (ManifestError MissingVersion).
Proof. vm_compute. reflexivity. Qed.

(** Escapes are decoded: a line feed, U+00E9 as two UTF-8 bytes, an
    escaped slash, [\u0031] as the digit 1. *)
Example parse_escaped :
  parseManifest jsonEscaped =
  Ok (mkManifest "0.1.1" escapedMessage "https://foo.bar/update" "00001111"
                 "120EA8A25E5D487BF68B5F7096440019").
Proof. vm_compute. reflexivity. Qed.

(** A surrogate pair is one code point (U+1F600, four bytes); a lone
    surrogate and a byte that is not UTF-8 become U+FFFD. *)
Example readStr_surrogate_pair :
  readStr 20 ("\ud83d\ude00" ++ q EmptyString) =
  Some (String (ascii_of_nat 240) (String (ascii_of_nat 159)
          (String (ascii_of_nat 152) (String (ascii_of_nat 128) EmptyString))),
        String dquote EmptyString).
Proof. vm_compute. reflexivity. Qed.

Example readStr_lone_surrogate :
  readStr 20 ("\ud83dx" ++ String dquote EmptyString) =
  Some (replacementChar ++ "x", EmptyString).
Proof. vm_compute. reflexivity. Qed.

Example readStr_invalid_utf8 :
  readStr 20 (String (ascii_of_nat 255) (String (ascii_of_nat 195)
                (String (ascii_of_nat 169) (String dquote EmptyString)))) =
  Some (replacementChar ++ String (ascii_of_nat 195) (String (ascii_of_nat 169) EmptyString),
        EmptyString).
Proof. vm_compute. reflexivity. Qed.

(** A raw control character inside a string literal is an error. *)
Example readStr_control_char :
  readStr 20 (String (ascii_of_nat 10) (String dquote EmptyString)) = None.
Proof. vm_compute. reflexivity. Qed.

(** A later duplicate wins, and [null] sets nothing. *)
Example parse_null_keeps_field :
  parseManifest ("{" ++ q "version" ++ ":" ++ q "1.0.0" ++ "," ++ q "version" ++ ":null,"
                 ++ q "message" ++ ":null}") =
  Ok (mkManifest "1.0.0" EmptyString EmptyString EmptyString EmptyString).
Proof. vm_compute. reflexivity. Qed.

(** A recognised key with a value that is not a string cannot be decoded. *)
Example parse_number_version :
  parseManifest ("{" ++ q "version" ++ ":1}") = Err (ManifestError Malformed).
Proof. vm_compute. reflexivity. Qed.

Example parse_number_message :
  parseManifest ("{" ++ q "version" ++ ":" ++ q "1.0.0" ++ "," ++ q "message" ++ ":[]}") =
  Err (ManifestError Malformed).
Proof. vm_compute. reflexivity. Qed.

(** Documents that are not one JSON object. *)
Example parse_array :
  parseManifest ("[" ++ q "version" ++ "]") = Err (ManifestError Malformed).
Proof. vm_compute. reflexivity. Qed.

Example parse_trailing :
  parseManifest (jsonA ++ "x") = Err (ManifestError Malformed).
Proof. vm_compute. reflexivity. Qed.

Example parse_leading_zero :
  parseManifest ("{" ++ q "version" ++ ":" ++ q "1.0.0" ++ "," ++ q "n" ++ ":01}") =
  Err (ManifestError Malformed).
Proof. vm_compute. reflexivity. Qed.

Example parse_bad_escape :
  parseManifest ("{" ++ q "version" ++ ":" ++ q "1.0.\x" ++ "}") =
  Err (ManifestError Malformed).
Proof. vm_compute. reflexivity. Qed.

Example parse_empty_object :
  parseManifest " { } " = Err (ManifestError MissingVersion).
Proof. vm_compute. reflexivity. Qed.

End DecoderExamples.

(* ------------------------------------------------------------------ *)
(** ** Properties of the update checker *)

Module UpdateProofs.
Import Update.

Lemma checkUpdate_unfold {S} `{VersionSource S} (src : S) (localVersion : string)
  (w : World) :
  checkUpdate src localVersion w =
  if skipRequested w then ((zeroResponse, None), w) else
  if String.eqb localVersion EmptyString
  then ((zeroResponse, Some (PreconditionError MissingLocalVersion)), w) else
  match fetch src w with
  | (inl cause, w1) => ((zeroResponse, Some (SourceError cause)), w1)
  | (inr raw, w1) =>
      match parseManifest raw with
      | Err e => ((zeroResponse, Some e), w1)
      | Ok m =>
          match compare localVersion (mVersion m) with
          | Err e => ((zeroResponse, Some e), w1)
          | Ok c =>
              ((mkCheckResponse (match c with Lt => true | _ => false end)
                  (mVersion m) (mMessage m) (mURL m)
                  (list_byte_of_string (mPublicKey m)) (mCheckSum m), None), w1)
          end
      end
  end.
Proof.
  unfold checkUpdate, checkUpdateM, bind, shouldSkip, ret, fail, liftR, fetchM.
  destruct (skipRequested w); auto.
  destruct (String.eqb localVersion EmptyString); auto.
  destruct (fetch src w) as [[cause|raw] w1]; auto.
  destruct (parseManifest raw) as [m|e]; auto.
  destruct (compare localVersion (mVersion m)); auto.
Qed.

Section FieldDecoding.

Variable get : RemoteManifest -> string.
Variable key : string.
Hypothesis get_set : forall m v, get (assignField m (key, JString v)) = v.
Hypothesis get_other : forall m v, (forall s, v <> JString s) -> get (assignField m (key, v)) = get m.
Hypothesis get_keep : forall m k v, k <> key -> get (assignField m (k, v)) = get m.

Let step (acc : option JValue) (kv : string * JValue) : option JValue :=
  if String.eqb (fst kv) key then match snd kv with JNull => acc | v => Some v end
  else acc.

Lemma fold_assignField_gen (kvs : list (string * JValue)) :
  forall m acc,
  (forall v, acc = Some (JString v) -> get m = v) ->
  forall v, fold_left step kvs acc = Some (JString v) ->
  get (fold_left assignField kvs m) = v.
Proof.
  induction kvs as [|[k x] kvs IH]; intros m acc Hacc; cbn [fold_left]; auto.
  apply IH. unfold step; cbn [fst snd]. intros v Hv.
  destruct (String.eqb k key) eqn:E.
  - apply String.eqb_eq in E; subst.
    destruct x; try (injection Hv as <-; apply get_set);
      try (discriminate || (rewrite get_other by discriminate; now apply Hacc)).
  - apply String.eqb_neq in E. rewrite get_keep by exact E. now apply Hacc.
Qed.

Lemma fold_assignField (kvs : list (string * JValue)) (m : RemoteManifest) (v : string) :
  lookupKey key kvs = Some (JString v) ->
  get (fold_left assignField kvs m) = v.
Proof.
  intros H. apply (fold_assignField_gen kvs m None); [discriminate | exact H].
Qed.

End FieldDecoding.

Ltac field_cases :=
  intros; unfold assignField;
  repeat match goal with
  | v : JValue |- _ => destruct v
  end;
  repeat match goal with
  | |- context [String.eqb ?a ?b] =>
      let E := fresh "E" in
      destruct (String.eqb a b) eqn:E;
      [apply String.eqb_eq in E; subst | apply String.eqb_neq in E]
  end; simpl; try reflexivity; try congruence;
  exfalso; match goal with H : forall s, _ <> JString s |- _ => eapply H; reflexivity end.

Lemma mVersion_decoded kvs m v :
  lookupKey "version" kvs = Some (JString v) -> mVersion (fold_left assignField kvs m) = v.
Proof. apply fold_assignField; field_cases. Qed.

Lemma mMessage_decoded kvs m v :
  lookupKey "message" kvs = Some (JString v) -> mMessage (fold_left assignField kvs m) = v.
Proof. apply fold_assignField; field_cases. Qed.

Lemma mURL_decoded kvs m v :
  lookupKey "url" kvs = Some (JString v) -> mURL (fold_left assignField kvs m) = v.
Proof. apply fold_assignField; field_cases. Qed.

Lemma mPublicKey_decoded kvs m v :
  lookupKey "publickey" kvs = Some (JString v) -> mPublicKey (fold_left assignField kvs m) = v.
Proof. apply fold_assignField; field_cases. Qed.

Lemma mCheckSum_decoded kvs m v :
  lookupKey "checksum" kvs = Some (JString v) -> mCheckSum (fold_left assignField kvs m) = v.
Proof. apply fold_assignField; field_cases. Qed.

Lemma parse_empty : SemVer.parse EmptyString = None.
Proof. reflexivity. Qed.

(** C1: the convenience entry point answers [false] whenever the check is
    skipped or the detailed path fails, and has no error to propagate. *)
Theorem IsUpdateAvailable_false_on_skip_or_error (buildVersion : string) (w : World) :
  skipRequested w = true \/
  snd (fst (checkUpdate (mkJsonSource (versionURL w)) buildVersion w)) <> None ->
  fst (IsUpdateAvailable buildVersion w) = false.
Proof.
  unfold IsUpdateAvailable. intros [H|H].
  - rewrite checkUpdate_unfold, H. reflexivity.
  - destruct (checkUpdate (mkJsonSource (versionURL w)) buildVersion w)
      as [[r [e|]] w']; simpl in *; auto; congruence.
Qed.

(** C2 (amended): an empty local version fails with the precondition
    error, before any fetch, when the disable toggle is not set; when the
    toggle is set, the check is skipped: the zero response and no error.
    In both cases the world is left untouched. *)
Theorem checkUpdate_empty_local {S} `{VersionSource S} (src : S) (w : World) :
  checkUpdate src EmptyString w =
  (if skipRequested w then (zeroResponse, None)
   else (zeroResponse, Some (PreconditionError MissingLocalVersion)), w).
Proof.
  rewrite checkUpdate_unfold. destruct (skipRequested w); reflexivity.
Qed.

(** C3: for valid versions, [UpdateAvailable] holds exactly when
    [compare(local, remote)] is [Lt]. *)
Theorem checkUpdate_update_iff_less {S} `{VersionSource S} (src : S)
  (localVersion raw : string) (w w1 : World) (m : RemoteManifest)
  (a b : SemVer.version) :
  skipRequested w = false ->
  fetch src w = (inr raw, w1) ->
  parseManifest raw = Ok m ->
  SemVer.parse localVersion = Some a ->
  SemVer.parse (mVersion m) = Some b ->
  compare localVersion (mVersion m) = Ok (SemVer.cmp a b) /\
  exists r, checkUpdate src localVersion w = ((r, None), w1) /\
            RemoteVersion r = mVersion m /\
            (UpdateAvailable r = true <-> SemVer.cmp a b = Lt).
Proof.
  intros Hs Hf Hp Ha Hb.
  assert (Hc : compare localVersion (mVersion m) = Ok (SemVer.cmp a b))
    by (unfold compare; now rewrite Ha, Hb).
  split; [exact Hc|].
  assert (Hl : String.eqb localVersion EmptyString = false).
  { destruct (String.eqb localVersion EmptyString) eqn:E; auto.
    apply String.eqb_eq in E; subst. rewrite parse_empty in Ha. discriminate. }
  rewrite checkUpdate_unfold, Hs, Hl, Hf, Hp, Hc.
  eexists; split; [reflexivity|]. simpl. split; [reflexivity|].
  destruct (SemVer.cmp a b); split; congruence.
Qed.

(** C4: with the toggle set, [checkUpdate] answers the zero response and
    no error, and leaves the world untouched: no request is sent. *)
Theorem checkUpdate_skipped {S} `{VersionSource S} (src : S)
  (localVersion : string) (w : World) :
  skipRequested w = true ->
  checkUpdate src localVersion w = ((zeroResponse, None), w).
Proof.
  intros Hs. rewrite checkUpdate_unfold, Hs. reflexivity.
Qed.

(** C5: a skipped or failed check hands back the zero-valued response. *)
Theorem checkUpdate_zero_on_skip_or_error {S} `{VersionSource S} (src : S)
  (localVersion : string) (w w' : World) (r : CheckResponse) (err : option error) :
  checkUpdate src localVersion w = ((r, err), w') ->
  skipRequested w = true \/ err <> None ->
  UpdateAvailable r = false /\ RemoteVersion r = EmptyString /\
  Message r = EmptyString /\ URL r = EmptyString /\
  PublicKey r = [] /\ CheckSum r = EmptyString.
Proof.
  intros Hc Hcase.
  assert (Hz : r = zeroResponse).
  { destruct Hcase as [Hs|He].
    - rewrite checkUpdate_unfold, Hs in Hc. congruence.
    - revert Hc. rewrite checkUpdate_unfold.
      destruct (skipRequested w); [congruence|].
      destruct (String.eqb localVersion EmptyString); [congruence|].
      destruct (fetch src w) as [[cause|raw] w1]; [congruence|].
      destruct (parseManifest raw) as [m|e]; [|congruence].
      destruct (compare localVersion (mVersion m)); congruence. }
  subst r. repeat split.
Qed.

(** C6: a manifest that is a JSON object (values of any type, unknown keys
    included) and whose [version] key is absent, [null] or the empty string
    fails to parse with [MissingVersion], and [checkUpdate] returns that
    error. *)
Theorem checkUpdate_missing_version {S} `{VersionSource S} (src : S)
  (localVersion raw : string) (w w1 : World) (kvs : list (string * JValue)) :
  skipRequested w = false ->
  localVersion <> EmptyString ->
  fetch src w = (inr raw, w1) ->
  decodeJSON raw = Some kvs ->
  lookupKey "version" kvs = None \/ lookupKey "version" kvs = Some (JString EmptyString) ->
  parseManifest raw = Err (ManifestError MissingVersion) /\
  checkUpdate src localVersion w =
  ((zeroResponse, Some (ManifestError MissingVersion)), w1).
Proof.
  intros Hs Hl Hf Hd Hv.
  assert (Hp : parseManifest raw = Err (ManifestError MissingVersion)).
  { unfold parseManifest. rewrite Hd.
    destruct Hv as [Hv|Hv]; rewrite Hv; reflexivity. }
  split; [exact Hp|].
  apply String.eqb_neq in Hl.
  rewrite checkUpdate_unfold, Hs, Hl, Hf, Hp. reflexivity.
Qed.

(** C7: when the fetched manifest carries every field as a JSON string, a
    successful check copies the decoded strings into the response: the
    version, the message, the url, the checksum, and the public key as the
    bytes of its text. *)
Theorem checkUpdate_copies_fields {S} `{VersionSource S} (src : S)
  (localVersion raw : string) (w w1 w' : World) (kvs : list (string * JValue))
  (v msg u pk cs : string) (r : CheckResponse) :
  skipRequested w = false ->
  fetch src w = (inr raw, w1) ->
  decodeJSON raw = Some kvs ->
  lookupKey "version" kvs = Some (JString v) ->
  lookupKey "message" kvs = Some (JString msg) ->
  lookupKey "url" kvs = Some (JString u) ->
  lookupKey "publickey" kvs = Some (JString pk) ->
  lookupKey "checksum" kvs = Some (JString cs) ->
  checkUpdate src localVersion w = ((r, None), w') ->
  RemoteVersion r = v /\ Message r = msg /\ URL r = u /\
  PublicKey r = list_byte_of_string pk /\ CheckSum r = cs.
Proof.
  intros Hs Hf Hd Hv Hm Hu Hk Hc Hcall.
  rewrite checkUpdate_unfold, Hs, Hf in Hcall.
  destruct (String.eqb localVersion EmptyString); [congruence|].
  unfold parseManifest in Hcall. rewrite Hd, Hv in Hcall.
  destruct (String.eqb v EmptyString); [congruence|].
  destruct (wellTyped kvs); [|congruence].
  destruct (compare localVersion (mVersion (fold_left assignField kvs emptyManifest)));
    [|congruence].
  inversion Hcall; subst; simpl.
  rewrite (mVersion_decoded _ _ _ Hv), (mMessage_decoded _ _ _ Hm), (mURL_decoded _ _ _ Hu),
    (mPublicKey_decoded _ _ _ Hk), (mCheckSum_decoded _ _ _ Hc).
  repeat split.
Qed.

(** C8: on valid versions [compare] is antisymmetric and transitive. *)
Theorem compare_strict_weak_order (sa sb sc : string) (a b c : SemVer.version) :
  SemVer.parse sa = Some a ->
  SemVer.parse sb = Some b ->
  SemVer.parse sc = Some c ->
  (compare sa sb = Ok Lt <-> compare sb sa = Ok Gt) /\
  (compare sa sb = Ok Eq <-> compare sb sa = Ok Eq) /\
  (compare sa sb = Ok Lt -> compare sb sc = Ok Lt -> compare sa sc = Ok Lt).
Proof.
  intros Ha Hb Hc. unfold compare. rewrite Ha, Hb, Hc.
  rewrite (SemVerFacts.cmp_antisym b a).
  repeat split; intros;
  repeat match goal with H : Ok _ = Ok _ |- _ => injection H as H end;
  try (destruct (SemVer.cmp a b); simpl in *; congruence).
  f_equal. eapply SemVerFacts.cmp_trans_lt; eauto.
Qed.

End UpdateProofs.

(* ------------------------------------------------------------------ *)
(** ** Properties of the OneView logout *)

Module OneViewProofs.
Import OneView.

Section LogoutProofs.

Context {Store : Type}.
Variable hostAndToken : Store -> string + (string * string).
Variable hostData : Store -> string -> string + string.
Variable sessionLogout : string -> string -> option string.
Variable deleteSavedHostData : Store -> string -> option string * Store.

Let run := runLogout hostAndToken hostData sessionLogout deleteSavedHostData.

(** Every run: nothing, a failed server logout, or a successful server
    logout followed by the deletion of the host's data. *)
Lemma runLogout_traces (hostParam : string) (st : Store) :
  let '(_, _, tr) := run hostParam st in
  tr = [] \/ (exists h, tr = [ESessionLogout h false]) \/
  (exists h, tr = [ESessionLogout h true; EDelete h]).
Proof.
  unfold run, runLogout.
  destruct (hostToLogout hostAndToken hostData hostParam st) as [e|[h t]]; auto.
  destruct (sessionLogout h t); eauto.
  destruct (deleteSavedHostData st h) as [[e|] st']; eauto.
Qed.

(** C9: when the server logout fails, [runLogout] returns its error, keeps
    the store as it was and never calls [deleteSavedHostData]; in every run
    the deletion of a host's data comes after a successful server logout of
    that host. *)
Theorem runLogout_keeps_session_on_logout_error (hostParam : string) (st : Store)
  (host token err : string) :
  hostToLogout hostAndToken hostData hostParam st = inr (host, token) ->
  sessionLogout host token = Some err ->
  run hostParam st = (Some err, st, [ESessionLogout host false]) /\
  (forall p s e s' pre post h,
     run p s = (e, s', app pre (EDelete h :: post)) ->
     In (ESessionLogout h true) pre).
Proof.
  intros Hh Hs. split.
  - unfold run, runLogout. rewrite Hh, Hs. reflexivity.
  - intros p s e s' pre post h Hr.
    pose proof (runLogout_traces p s) as Ht. rewrite Hr in Ht.
    destruct Ht as [Ht|[[h' Ht]|[h' Ht]]].
    + destruct pre; discriminate.
    + destruct pre as [|x [|y pre]]; simpl in Ht; discriminate.
    + destruct pre as [|x [|y pre]]; simpl in Ht; inversion Ht; subst.
      * left. reflexivity.
      * destruct pre; discriminate.
Qed.

End LogoutProofs.

End OneViewProofs.

(* ------------------------------------------------------------------ *)
(** ** Properties of the GreenLake get command *)

Module GreenLakeProofs.
Import GreenLake.

(** C10: any path other than [users] prints the unknown-path line and
    returns no error. *)
Theorem runGlGet_unknown_path
  (getTokenTenantID : unit -> string * string * string)
  (getUsers : string -> string -> string -> string -> string + string)
  (unmarshalUsers : string -> string + list User)
  (getPath : string) (getJSONResult : bool) :
  getPath <> "users" ->
  runGlGet getTokenTenantID getUsers unmarshalUsers getPath getJSONResult =
  (None, "Unknown path:  " ++ getPath ++ newline).
Proof.
  intros Hp. unfold runGlGet.
  destruct (getTokenTenantID tt) as [[host tenantID] apiKey].
  apply String.eqb_neq in Hp. rewrite Hp. reflexivity.
Qed.

End GreenLakeProofs.

(* ------------------------------------------------------------------ *)
(** ** Instances of the theorems on concrete inputs *)

Module Witnesses.
Import Update Fixtures UpdateProofs.

Lemma IsUpdateAvailable_false_on_skip_or_error_witness :
  snd (fst (checkUpdate (mkJsonSource (versionURL badWorld)) "0.0.0" badWorld)) <> None
  /\ fst (IsUpdateAvailable "0.0.0" badWorld) = false.
Proof.
  split.
  - vm_compute. discriminate.
  - apply IsUpdateAvailable_false_on_skip_or_error. right. vm_compute. discriminate.
Defined.

(** Against the claim that an empty local version always fails: with the
    toggle set, [checkUpdate] returns no error at all. *)
Lemma checkUpdate_empty_local_toggle_set :
  snd (fst (checkUpdate src EmptyString (serving jsonA (Some "true")))) = None.
Proof. reflexivity. Qed.

Lemma checkUpdate_update_iff_less_witness :
  compare "0.0.1" "0.1.0" =
    Ok (SemVer.cmp (SemVer.mkVersion 0 0 1 []) (SemVer.mkVersion 0 1 0 [])) /\
  exists r, checkUpdate src "0.0.1" (serving jsonA None) =
              ((r, None), snd (fetch src (serving jsonA None))) /\
            RemoteVersion r = "0.1.0" /\
            (UpdateAvailable r = true <->
             SemVer.cmp (SemVer.mkVersion 0 0 1 []) (SemVer.mkVersion 0 1 0 []) = Lt).
Proof.
  apply (checkUpdate_update_iff_less src "0.0.1" jsonA (serving jsonA None)
           (snd (fetch src (serving jsonA None)))
           (mkManifest "0.1.0" EmptyString EmptyString EmptyString EmptyString));
    vm_compute; reflexivity.
Defined.

Lemma checkUpdate_skipped_witness :
  checkUpdate src EmptyString (serving jsonA (Some "true")) =
  ((zeroResponse, None), serving jsonA (Some "true")).
Proof. apply checkUpdate_skipped. reflexivity. Defined.

Lemma checkUpdate_zero_on_skip_or_error_witness :
  UpdateAvailable zeroResponse = false /\ RemoteVersion zeroResponse = EmptyString /\
  Message zeroResponse = EmptyString /\ URL zeroResponse = EmptyString /\
  PublicKey zeroResponse = [] /\ CheckSum zeroResponse = EmptyString.
Proof.
  apply (checkUpdate_zero_on_skip_or_error src "0.0.1" (serving jsonNoVersion None)
           (snd (fetch src (serving jsonNoVersion None))) zeroResponse
           (Some (ManifestError MissingVersion))).
  - vm_compute. reflexivity.
  - right. discriminate.
Defined.

Lemma checkUpdate_missing_version_witness :
  parseManifest jsonUnknownValues = Err (ManifestError MissingVersion) /\
  checkUpdate src "0.0.1" (serving jsonUnknownValues None) =
  ((zeroResponse, Some (ManifestError MissingVersion)),
   snd (fetch src (serving jsonUnknownValues None))).
Proof.
  apply (checkUpdate_missing_version src "0.0.1" jsonUnknownValues
           (serving jsonUnknownValues None)
           (snd (fetch src (serving jsonUnknownValues None)))
           [("message", JString "x"); ("size", JNumber "1")]).
  - reflexivity.
  - discriminate.
  - vm_compute. reflexivity.
  - vm_compute. reflexivity.
  - left. reflexivity.
Defined.

Lemma checkUpdate_copies_fields_witness :
  RemoteVersion (fst (fst (checkUpdate src "0.1.2" (serving jsonEscaped None)))) = "0.1.1" /\
  Message (fst (fst (checkUpdate src "0.1.2" (serving jsonEscaped None)))) = escapedMessage /\
  URL (fst (fst (checkUpdate src "0.1.2" (serving jsonEscaped None)))) = "https://foo.bar/update" /\
  PublicKey (fst (fst (checkUpdate src "0.1.2" (serving jsonEscaped None)))) =
    list_byte_of_string "00001111" /\
  CheckSum (fst (fst (checkUpdate src "0.1.2" (serving jsonEscaped None)))) =
    "120EA8A25E5D487BF68B5F7096440019".
Proof.
  apply (checkUpdate_copies_fields src "0.1.2" jsonEscaped (serving jsonEscaped None)
           (snd (fetch src (serving jsonEscaped None)))
           (snd (checkUpdate src "0.1.2" (serving jsonEscaped None)))
           [("version", JString "0.1.1"); ("message", JString escapedMessage);
            ("url", JString "https://foo.bar/update"); ("publickey", JString "00001111");
            ("checksum", JString "120EA8A25E5D487BF68B5F7096440019"); ("size", JNumber "1")]);
    vm_compute; reflexivity.
Defined.

Lemma compare_strict_weak_order_witness :
  (compare "1.0.0-alpha" "1.0.0" = Ok Lt <-> compare "1.0.0" "1.0.0-alpha" = Ok Gt) /\
  (compare "1.0.0-alpha" "1.0.0" = Ok Eq <-> compare "1.0.0" "1.0.0-alpha" = Ok Eq) /\
  (compare "1.0.0-alpha" "1.0.0" = Ok Lt -> compare "1.0.0" "2.0.0" = Ok Lt ->
   compare "1.0.0-alpha" "2.0.0" = Ok Lt).
Proof.
  apply (compare_strict_weak_order "1.0.0-alpha" "1.0.0" "2.0.0"
           (SemVer.mkVersion 1 0 0 [SemVer.PAlnum "alpha"])
           (SemVer.mkVersion 1 0 0 []) (SemVer.mkVersion 2 0 0 []));
    reflexivity.
Defined.

End Witnesses.

Module CommandWitnesses.
Import OneView GreenLake Fixtures.

Lemma runLogout_keeps_session_on_logout_error_witness :
  runLogout storeHostAndToken storeHostData refusingLogout storeDelete EmptyString st0 =
    (Some "401 Unauthorized", st0, [ESessionLogout "https://ov.example" false]) /\
  (forall p s e s' pre post h,
     runLogout storeHostAndToken storeHostData refusingLogout storeDelete p s =
       (e, s', app pre (EDelete h :: post)) ->
     In (ESessionLogout h true) pre).
Proof.
  apply (OneViewProofs.runLogout_keeps_session_on_logout_error
           storeHostAndToken storeHostData refusingLogout storeDelete
           EmptyString st0 "https://ov.example" "tok" "401 Unauthorized");
    reflexivity.
Defined.

Lemma runGlGet_unknown_path_witness :
  runGlGet (fun _ => ("https://gl.example", "tenant", "key"))
           (fun _ _ _ _ => inr "[]") (fun _ => inr []) "p" false =
  (None, "Unknown path:  " ++ "p" ++ newline).
Proof.
  apply GreenLakeProofs.runGlGet_unknown_path. discriminate.
Defined.

End CommandWitnesses.

(* ------------------------------------------------------------------ *)
(** ** Further properties of the commands *)

Module CommandProofs.

Module OV := OneView.
Module CV := CloudVolume.
Module GL := GreenLake.

Lemma normalizeHost_basic (h : string) :
  (OV.normalizeHost h = EmptyString <-> h = EmptyString) /\
  (h <> EmptyString -> String.prefix "http" (OV.normalizeHost h) = true).
Proof.
  unfold OV.normalizeHost.
  destruct (String.eqb h EmptyString) eqn:E.
  - apply String.eqb_eq in E; subst. simpl. split; [tauto|]. intros H; now elim H.
  - apply String.eqb_neq in E.
    destruct (String.prefix "http" h) eqn:P; simpl.
    + split; [tauto|]. auto.
    + split; [split; intros H; [discriminate|contradiction]|]. reflexivity.
Qed.

(** The [--host] rewriting keeps the empty host empty, keeps a host that
    starts with [http] as it is, and puts [https://] in front of any other
    host; so every non-empty result starts with [http]. *)
Theorem normalizeHost_http (h : string) :
  (OV.normalizeHost h = EmptyString <-> h = EmptyString) /\
  (String.prefix "http" h = true -> OV.normalizeHost h = h) /\
  (h <> EmptyString -> String.prefix "http" h = false ->
   OV.normalizeHost h = "https://" ++ h) /\
  (h <> EmptyString -> String.prefix "http" (OV.normalizeHost h) = true).
Proof.
  destruct (normalizeHost_basic h) as [He Hp].
  split; [exact He|]. split; [|split; [|exact Hp]].
  - intros P. unfold OV.normalizeHost. rewrite P, andb_false_r. reflexivity.
  - intros E P. apply String.eqb_neq in E.
    unfold OV.normalizeHost. rewrite E, P. reflexivity.
Qed.

(** Rewriting a host twice is rewriting it once. *)
Theorem normalizeHost_idempotent (h : string) :
  OV.normalizeHost (OV.normalizeHost h) = OV.normalizeHost h.
Proof.
  destruct (normalizeHost_basic h) as [He Hp].
  destruct (String.eqb h EmptyString) eqn:E.
  - apply String.eqb_eq in E. rewrite (proj2 He E). reflexivity.
  - apply String.eqb_neq in E.
    unfold OV.normalizeHost at 1. rewrite (Hp E).
    rewrite andb_false_r. reflexivity.
Qed.

Section OneViewLogout.

Context {Store : Type}.
Variable hostAndToken : Store -> string + (string * string).
Variable hostData : Store -> string -> string + string.
Variable sessionLogout : string -> string -> option string.
Variable deleteSavedHostData : Store -> string -> option string * Store.

Let run := OV.runLogout hostAndToken hostData sessionLogout deleteSavedHostData.
Let runE := OV.logoutRunE hostAndToken hostData sessionLogout deleteSavedHostData.

(** When no saved login can be found (no last login for an empty host, no
    saved token for a given one), [runLogout] answers the fixed
    "please login" message, whatever the store's own error was, and
    neither contacts the server nor touches the store. *)
Theorem ov_runLogout_no_saved_login (hostParam : string) (st : Store) (e : string) :
  (hostParam = EmptyString /\ hostAndToken st = inl e) \/
  (hostParam <> EmptyString /\ hostData st hostParam = inl e) ->
  run hostParam st = (Some OV.lastLoginMsg, st, []).
Proof.
  unfold run, OV.runLogout, OV.hostToLogout.
  intros [[Hp Hs]|[Hp Hs]].
  - subst. simpl. now rewrite Hs.
  - apply String.eqb_neq in Hp. now rewrite Hp, Hs.
Qed.

(** Logging out of a given host uses the token saved for that very host,
    deletes the data of that very host once the server accepted the logout,
    and returns what the deletion returned. *)
Theorem ov_runLogout_given_host (hostParam token : string) (st st' : Store)
  (r : option string) :
  hostParam <> EmptyString ->
  hostData st hostParam = inr token ->
  sessionLogout hostParam token = None ->
  deleteSavedHostData st hostParam = (r, st') ->
  run hostParam st = (r, st', [OV.ESessionLogout hostParam true; OV.EDelete hostParam]).
Proof.
  intros Hp Hd Hs Hdel.
  unfold run, OV.runLogout, OV.hostToLogout.
  apply String.eqb_neq in Hp. rewrite Hp, Hd, Hs, Hdel.
  destruct r; reflexivity.
Qed.

(** With a non-empty [--host] flag, every call the command makes is about
    the rewritten host, which starts with [http]. *)
Theorem ov_logoutRunE_host (h : string) (st : Store) (ev : OV.event) :
  h <> EmptyString ->
  In ev (snd (runE h st)) ->
  String.prefix "http" (OV.normalizeHost h) = true /\
  (ev = OV.ESessionLogout (OV.normalizeHost h) true \/
   ev = OV.ESessionLogout (OV.normalizeHost h) false \/
   ev = OV.EDelete (OV.normalizeHost h)).
Proof.
  intros Hh Hin.
  destruct (normalizeHost_basic h) as [He Hp].
  split; [exact (Hp Hh)|].
  assert (Hn : OV.normalizeHost h <> EmptyString) by (intros E; apply Hh, He, E).
  revert Hin. unfold runE, OV.logoutRunE, OV.runLogout, OV.hostToLogout.
  apply String.eqb_neq in Hn. rewrite Hn.
  destruct (hostData st (OV.normalizeHost h)) as [e|t]; simpl; [tauto|].
  destruct (sessionLogout (OV.normalizeHost h) t); simpl; [intuition congruence|].
  destruct (deleteSavedHostData st (OV.normalizeHost h)) as [[e|] st'];
    simpl; intuition congruence.
Qed.

End OneViewLogout.

Section CloudVolumeLogout.

Context {Store : Type}.
Variable cvDefaultHost : string.
Variable hostData : Store -> string -> string + string.
Variable deleteSavedHostData : Store -> string -> option string * Store.

Let run := CV.runLogout cvDefaultHost hostData deleteSavedHostData.
Let runE := CV.logoutRunE cvDefaultHost hostData deleteSavedHostData.

Lemma cv_runLogout_events (host0 : string) (st : Store) (ev : OV.event) :
  In ev (snd (run host0 st)) ->
  ev = OV.EDelete (if String.eqb host0 EmptyString then cvDefaultHost else host0).
Proof.
  unfold run, CV.runLogout.
  destruct (hostData st _) as [e|t]; simpl; [tauto|].
  destruct (deleteSavedHostData st _) as [[e|] st']; simpl; intuition congruence.
Qed.

(** The Cloud Volumes logout never contacts the server: its only call is
    the deletion of the saved data of the host it resolved (the default
    host for an empty one). *)
Theorem cv_runLogout_local_only (host0 : string) (st : Store) (ev : OV.event) :
  In ev (snd (run host0 st)) ->
  ev = OV.EDelete (if String.eqb host0 EmptyString then cvDefaultHost else host0).
Proof. apply cv_runLogout_events. Qed.

(** An empty host is the default host. *)
Theorem cv_runLogout_empty_is_default (st : Store) :
  run EmptyString st = run cvDefaultHost st.
Proof.
  unfold run, CV.runLogout. simpl.
  destruct (String.eqb cvDefaultHost EmptyString) eqn:E; [|reflexivity].
  apply String.eqb_eq in E. now rewrite E.
Qed.

(** Without a saved token for the host, the logout answers the fixed
    "please login" message and leaves the store as it was. *)
Theorem cv_runLogout_no_saved_login (host0 : string) (st : Store) (e : string) :
  hostData st (if String.eqb host0 EmptyString then cvDefaultHost else host0) = inl e ->
  run host0 st = (Some CV.lastLoginMsg, st, []).
Proof.
  intros Hd. unfold run, CV.runLogout. now rewrite Hd.
Qed.

(** With a saved token, the logout deletes that host's data and returns
    what the deletion returned. *)
Theorem cv_runLogout_deletes (host0 token : string) (st st' : Store)
  (r : option string) :
  let host := if String.eqb host0 EmptyString then cvDefaultHost else host0 in
  hostData st host = inr token ->
  deleteSavedHostData st host = (r, st') ->
  run host0 st = (r, st', [OV.EDelete host]).
Proof.
  intros host Hd Hdel. unfold run, CV.runLogout. fold host.
  rewrite Hd, Hdel. destruct r; reflexivity.
Qed.

(** The command acts on the default host when the host is empty and on
    the host rewritten with a scheme otherwise. *)
Theorem cv_logoutRunE_host (h : string) (st : Store) (ev : OV.event) :
  In ev (snd (runE h st)) ->
  ev = OV.EDelete (if String.eqb h EmptyString then cvDefaultHost
                   else OV.normalizeHost h).
Proof.
  destruct (normalizeHost_basic h) as [He _].
  unfold runE, CV.logoutRunE.
  intros Hin. apply cv_runLogout_events in Hin. rewrite Hin. f_equal.
  destruct (String.eqb h EmptyString) eqn:E.
  - apply String.eqb_eq in E. rewrite (proj2 He E). simpl.
    destruct (String.eqb cvDefaultHost EmptyString) eqn:D; auto.
  - apply String.eqb_neq in E.
    assert (N : String.eqb (OV.normalizeHost h) EmptyString = false)
      by (apply String.eqb_neq; intros X; apply E, He, X).
    now rewrite !N.
Qed.

End CloudVolumeLogout.

Section GreenLakeGet.

Variable getTokenTenantID : unit -> string * string * string.
Variable getUsers : string -> string -> string -> string -> string + string.
Variable unmarshalUsers : string -> string + list GL.User.

Let run := GL.runGlGet getTokenTenantID getUsers unmarshalUsers.

Let host := fst (fst (getTokenTenantID tt)).
Let tenantID := snd (fst (getTokenTenantID tt)).
Let apiKey := snd (getTokenTenantID tt).

(** A failed users request is returned as the command's error, and nothing
    is printed, in either output mode. *)
Theorem gl_users_request_error (json : bool) (err : string) :
  getUsers host tenantID apiKey "Users" = inl err ->
  run "users" json = (Some err, EmptyString).
Proof.
  unfold run, GL.runGlGet, host, tenantID, apiKey.
  destruct (getTokenTenantID tt) as [[h t] k]; simpl. intros E. now rewrite E.
Qed.

(** With [--json], the body of the users request is printed as it came,
    followed by a newline, and is never decoded. *)
Theorem gl_users_json_verbatim (body : string) :
  getUsers host tenantID apiKey "Users" = inr body ->
  run "users" true = (None, body ++ GL.newline).
Proof.
  unfold run, GL.runGlGet, host, tenantID, apiKey.
  destruct (getTokenTenantID tt) as [[h t] k]; simpl. intros E. now rewrite E.
Qed.

(** Without [--json], a body that does not decode is returned as the
    error, and nothing is printed. *)
Theorem gl_users_decode_error (body err : string) :
  getUsers host tenantID apiKey "Users" = inr body ->
  unmarshalUsers body = inl err ->
  run "users" false = (Some err, EmptyString).
Proof.
  unfold run, GL.runGlGet, host, tenantID, apiKey.
  destruct (getTokenTenantID tt) as [[h t] k]; simpl. intros E U. now rewrite E, U.
Qed.

End GreenLakeGet.

Lemma countChar_app (c : ascii) (s1 s2 : string) :
  GL.countChar c (s1 ++ s2) = GL.countChar c s1 + GL.countChar c s2.
Proof. induction s1 as [|d s1 IH]; simpl; [reflexivity|]. rewrite IH. lia. Qed.

Lemma countChar_concat (c : ascii) (ss : list string) :
  GL.countChar c (String.concat EmptyString ss) =
  fold_right (fun s n => GL.countChar c s + n) 0 ss.
Proof.
  induction ss as [|s ss IH]; [reflexivity|].
  destruct ss as [|s' ss'].
  - simpl. lia.
  - change (String.concat EmptyString (s :: s' :: ss'))
      with (s ++ String.concat EmptyString (s' :: ss')).
    rewrite countChar_app, IH. reflexivity.
Qed.

(** Without [--json], the users are printed one line each: when no name or
    email contains a newline, the output has exactly as many lines as the
    decoded list has users. *)
Theorem gl_users_one_line_each
  (getTokenTenantID : unit -> string * string * string)
  (getUsers : string -> string -> string -> string -> string + string)
  (unmarshalUsers : string -> string + list GL.User)
  (body : string) (users : list GL.User) :
  let '(h, t, k) := getTokenTenantID tt in
  getUsers h t k "Users" = inr body ->
  unmarshalUsers body = inr users ->
  Forall (fun u => GL.countChar (ascii_of_nat 10) (GL.DisplayName u) = 0 /\
                   GL.countChar (ascii_of_nat 10) (GL.UserName u) = 0) users ->
  exists out,
    GL.runGlGet getTokenTenantID getUsers unmarshalUsers "users" false = (None, out) /\
    GL.countChar (ascii_of_nat 10) out = length users.
Proof.
  unfold GL.runGlGet.
  destruct (getTokenTenantID tt) as [[h t] k]. intros E U F. simpl.
  rewrite E, U. eexists; split; [reflexivity|].
  rewrite countChar_concat. clear E U.
  induction F as [|u us [Hd Hu] F IH]; [reflexivity|].
  cbn [fold_right map length]. rewrite IH.
  repeat progress (simpl; rewrite ?countChar_app, ?Hd, ?Hu).
  destruct (GL.Active u); reflexivity.
Qed.

End CommandProofs.

Module CommandExtraWitnesses.
Import OneView Fixtures CommandProofs.
Module CV := CloudVolume.
Module GL := GreenLake.

Lemma ov_runLogout_no_saved_login_witness :
  runLogout storeHostAndToken storeHostData acceptingLogout storeDelete "https://other" st0 =
  (Some lastLoginMsg, st0, []).
Proof.
  apply (ov_runLogout_no_saved_login storeHostAndToken storeHostData acceptingLogout
           storeDelete "https://other" st0 "no saved token").
  right. split; [discriminate|reflexivity].
Defined.

Lemma ov_runLogout_given_host_witness :
  runLogout storeHostAndToken storeHostData acceptingLogout storeDelete
    "https://ov.example" st0 =
  (None, [], [ESessionLogout "https://ov.example" true; EDelete "https://ov.example"]).
Proof.
  apply (ov_runLogout_given_host storeHostAndToken storeHostData acceptingLogout
           storeDelete "https://ov.example" "tok" st0 [] None);
    [discriminate|reflexivity..].
Defined.

Lemma ov_logoutRunE_host_witness :
  String.prefix "http" (normalizeHost "ov.example") = true /\
  (EDelete "https://ov.example" = ESessionLogout (normalizeHost "ov.example") true \/
   EDelete "https://ov.example" = ESessionLogout (normalizeHost "ov.example") false \/
   EDelete "https://ov.example" = EDelete (normalizeHost "ov.example")).
Proof.
  apply (ov_logoutRunE_host storeHostAndToken storeHostData acceptingLogout storeDelete
           "ov.example" st0).
  - discriminate.
  - vm_compute. right. left. reflexivity.
Defined.

Lemma cv_runLogout_local_only_witness :
  EDelete cvHost = EDelete (if String.eqb EmptyString EmptyString then cvHost else EmptyString).
Proof.
  apply (cv_runLogout_local_only cvHost storeHostData storeDelete EmptyString
           [(cvHost, "tok")]).
  vm_compute. left. reflexivity.
Defined.

Lemma cv_runLogout_no_saved_login_witness :
  CV.runLogout cvHost storeHostData storeDelete EmptyString st0 =
  (Some CV.lastLoginMsg, st0, []).
Proof.
  apply (cv_runLogout_no_saved_login cvHost storeHostData storeDelete EmptyString st0
           "no saved token").
  reflexivity.
Defined.

Lemma cv_runLogout_deletes_witness :
  CV.runLogout cvHost storeHostData storeDelete "https://ov.example" st0 =
  (None, [], [EDelete "https://ov.example"]).
Proof.
  apply (cv_runLogout_deletes cvHost storeHostData storeDelete "https://ov.example"
           "tok" st0 [] None); reflexivity.
Defined.

Lemma cv_logoutRunE_host_witness :
  EDelete "https://ov.example" =
  EDelete (if String.eqb "ov.example" EmptyString then cvHost
           else normalizeHost "ov.example").
Proof.
  apply (cv_logoutRunE_host cvHost storeHostData storeDelete "ov.example" st0).
  vm_compute. left. reflexivity.
Defined.

Lemma gl_users_request_error_witness :
  GL.runGlGet glLogin usersDown decodeTwo "users" false =
  (Some "503 Service Unavailable", EmptyString).
Proof. apply gl_users_request_error. reflexivity. Defined.

Lemma gl_users_json_verbatim_witness :
  GL.runGlGet glLogin usersUp decodeFail "users" true = (None, "[users]" ++ GL.newline).
Proof. apply gl_users_json_verbatim. reflexivity. Defined.

Lemma gl_users_decode_error_witness :
  GL.runGlGet glLogin usersUp decodeFail "users" false = (Some "invalid character", EmptyString).
Proof. apply (gl_users_decode_error glLogin usersUp decodeFail "[users]"); reflexivity. Defined.

Lemma gl_users_one_line_each_witness :
  exists out,
    GL.runGlGet glLogin usersUp decodeTwo "users" false = (None, out) /\
    GL.countChar (ascii_of_nat 10) out = 2.
Proof.
  apply (gl_users_one_line_each glLogin usersUp decodeTwo "[users]"
           [GL.mkUser "Ann" "ann@example.com" true; GL.mkUser "Bob" "bob@example.com" false]);
    try reflexivity.
  repeat constructor.
Defined.

End CommandExtraWitnesses.
